(** * NullEvaluator: the do-nothing evaluator of ml-rapids

    A shallow embedding of [code/src/evaluation/NullEvaluator.cpp] and the
    properties its specification states.  The translation unit holds two
    registration macros, an empty constructor and destructor, and three
    member functions whose bodies are a bare [return].

    The member functions are embedded as computations over an explicit
    program state (the object [*this] and the free store of [Measures]
    objects), with an outcome type that can tell a normal return from a
    thrown exception and from undefined behaviour, so that "never fails"
    and "no state mutation" are statements about the embedding and not
    facts of the meta-language. *)

From Stdlib Require Import Ascii.
From stdpp Require Import gmap strings list.

(** ** The fragment of C++ the translation unit relies on *)

Module Cpp.

(** A pointer value: the null pointer, or the address of an object. *)
Inductive pointer : Type :=
| nullptr
| object_at (a : positive).

#[global] Instance pointer_eq_dec : EqDecision pointer.
Proof. solve_decision. Defined.

(** The state a member function runs in: the object it is called on,
    and the [Measures] objects alive on the free store. *)
Record World (Members Measures : Type) : Type := mkWorld {
  this : Members;
  free_store : gmap positive Measures
}.
Arguments mkWorld {Members Measures} _ _.
Arguments this {Members Measures} _.
Arguments free_store {Members Measures} _.

(** How a call ends. *)
Inductive Outcome (W A : Type) : Type :=
| Returns (a : A) (w : W)
| Throws (what : string)
| Undefined.
Arguments Returns {W A} _ _.
Arguments Throws {W A} _.
Arguments Undefined {W A}.

(** Computations: state passing with the three outcomes. *)
Definition M (W A : Type) : Type := W -> Outcome W A.

#[global] Instance M_ret {W} : MRet (M W) :=
  fun A (a : A) (w : W) => Returns a w.

#[global] Instance M_bind {W} : MBind (M W) :=
  fun A B (k : A -> M W B) (m : M W A) (w : W) =>
    match m w with
    | Returns a w' => k a w'
    | Throws e => Throws e
    | Undefined => Undefined
    end.

(** [*p]: reading through a pointer.  Reading through the null pointer,
    or through an address that holds no object, is undefined. *)
Definition deref {Members Measures} (p : pointer)
  : M (World Members Measures) Measures :=
  fun w =>
    match p with
    | nullptr => Undefined
    | object_at a =>
        match free_store w !! a with
        | Some m => Returns m w
        | None => Undefined
        end
    end.

(** What a class declaration fixes for its constructor and destructor:
    the base and member subobjects.  A constructor with no
    member-initialiser list default-initialises them before its body
    runs, and a destructor destroys them after its body has run.  What
    either step does is decided where the subobjects are declared. *)
Class Subobjects (Members Measures : Type) : Type := {
  initialize_subobjects : M (World Members Measures) unit;
  destroy_subobjects : M (World Members Measures) unit
}.

(** A call that came back to its caller. *)
Definition returns_normally {W A} (o : Outcome W A) : Prop :=
  exists a w, o = Returns a w.

(** A computation that comes back from every state: it neither throws
    nor runs into undefined behaviour. *)
Definition never_fails {W A} (m : M W A) : Prop :=
  forall w, returns_normally (m w)
            /\ (forall what, m w <> Throws what)
            /\ m w <> Undefined.

(** The double quote character (code 34), which a string literal
    spells with a backslash before it. *)
Definition dquote : Ascii.ascii := Ascii.ascii_of_nat 34.

(** A narrow string literal, given as the runs of characters between
    its escaped double quotes: the value is the runs with one double
    quote between each two of them. *)
Definition c_literal (runs : list string) : string :=
  String.concat (String dquote EmptyString) runs.

End Cpp.

Import Cpp.

(** ** The plug-in framework around the class *)

Module Framework.

(** Modelled from the spec: Common.h, which defines the macros
    [REGISTER_CLASS] and [REGISTER_COMMAND_LINE_PARAMETER], is not among
    the sources.  The spec describes them as a self-registration
    pattern: the class registers itself with a global factory keyed by
    its name string, together with a schema string that declares its
    command-line parameters.  The registry is therefore a map from
    names to factories and a map from names to schema strings; each
    macro stringifies its class token and stores under that key. *)
Record Registry (Factory : Type) : Type := mkRegistry {
  classes : gmap string Factory;
  parameters : gmap string string
}.
Arguments mkRegistry {Factory} _ _.
Arguments classes {Factory} _.
Arguments parameters {Factory} _.

Definition REGISTER_CLASS {Factory} (NAME : string) (create : Factory)
    (r : Registry Factory) : Registry Factory :=
  mkRegistry (<[NAME := create]> (classes r)) (parameters r).

Definition REGISTER_COMMAND_LINE_PARAMETER {Factory}
    (NAME PARAMETER : string) (r : Registry Factory) : Registry Factory :=
  mkRegistry (classes r) (<[NAME := PARAMETER]> (parameters r)).

End Framework.

Import Framework.

(** ** NullEvaluator.cpp *)

Module NullEvaluator.
Section Methods.

(** [Instance] and [Measures] are declared outside this translation
    unit, and so are the data members of the class (NullEvaluator.h):
    the member functions are embedded for any choice of them.  A score
    is a [double]; no member function reads one.  The base and member
    subobjects are declared in NullEvaluator.h as well, so their
    initialisation and destruction are taken as given. *)
Context {Instance Measures double Members : Type}.
Context `{subobjects : !Subobjects Members Measures}.

Abbreviation W := (World Members Measures).

(** [NullEvaluator::NullEvaluator() { }]: there is no member-initialiser
    list, so the subobjects are default-initialised; then the empty
    body runs. *)
Definition constructor : M W unit :=
  _ ← initialize_subobjects; mret tt.

(** [NullEvaluator::~NullEvaluator() { }]: the empty body runs; then the
    subobjects are destroyed. *)
Definition destructor : M W unit :=
  _ ← mret tt; destroy_subobjects.

(** [void NullEvaluator::addResult(const Instance&, double[]) { return; }] *)
Definition addResult (_ : Instance) (_ : list double) : M W unit :=
  mret tt.

(** [Measures* NullEvaluator::getMeasures() { return nullptr; }] *)
Definition getMeasures : M W pointer := mret nullptr.

(** [string NullEvaluator::toString() { return " "; }] *)
Definition toString : M W string := mret " ".

(** The string literal of the [REGISTER_COMMAND_LINE_PARAMETER]
    invocation: six adjacent literals, one per source line, which the
    compiler concatenates. *)
Definition parameter_literal : string :=
  c_literal ["{"; "type"; ":"; "Evaluator"; ","]
  +:+ c_literal [EmptyString; "name"; ":"; "NullEvaluator"; ","]
  +:+ c_literal [EmptyString; "parameter"; ":{"]
  +:+ c_literal [EmptyString; "-f"; ":"; "Frequency"; EmptyString]
  +:+ c_literal ["}}"]
  +:+ c_literal [EmptyString].

(** The class token [NullEvaluator] as the macros stringify it. *)
Definition class_name : string := "NullEvaluator".

(** The two file-scope macro invocations, in source order:
    [REGISTER_CLASS(NullEvaluator)] and then
    [REGISTER_COMMAND_LINE_PARAMETER(NullEvaluator, ...)]. *)
Definition static_initialization (r : Registry (M W unit))
  : Registry (M W unit) :=
  REGISTER_COMMAND_LINE_PARAMETER class_name parameter_literal
    (REGISTER_CLASS class_name constructor r).

End Methods.
End NullEvaluator.

(** ** Callers *)

(** One call of a public member function, with its arguments. *)
Inductive Call (Instance double : Type) : Type :=
| CallAddResult (instance : Instance) (scores : list double)
| CallGetMeasures
| CallToString.
Arguments CallAddResult {Instance double} _ _.
Arguments CallGetMeasures {Instance double}.
Arguments CallToString {Instance double}.

(** What a call hands back. *)
Inductive Value : Type :=
| VVoid
| VPointer (p : pointer)
| VString (s : string).

(** A step in the life of the object: construction, a call, destruction. *)
Inductive Operation (Instance double : Type) : Type :=
| Construct
| Invoke (c : Call Instance double)
| Destroy.
Arguments Construct {Instance double}.
Arguments Invoke {Instance double} _.
Arguments Destroy {Instance double}.

(** The value part of an outcome, when there is one. *)
Definition result {W A} (o : Outcome W A) : option A :=
  match o with
  | Returns a _ => Some a
  | Throws _ | Undefined => None
  end.

Section Callers.

Context {Instance Measures double Members : Type}.
Context `{subobjects : !Subobjects Members Measures}.

Abbreviation W := (World Members Measures).

Definition invoke (c : Call Instance double) : M W Value :=
  match c with
  | CallAddResult i scores =>
      _ ← NullEvaluator.addResult i scores; mret VVoid
  | CallGetMeasures => p ← NullEvaluator.getMeasures; mret (VPointer p)
  | CallToString => s ← NullEvaluator.toString; mret (VString s)
  end.

(** The value a call is expected to hand back, read off the three
    [return] statements. *)
Definition value_of (c : Call Instance double) : Value :=
  match c with
  | CallAddResult _ _ => VVoid
  | CallGetMeasures => VPointer nullptr
  | CallToString => VString " "
  end.

Definition perform (op : Operation Instance double) : M W Value :=
  match op with
  | Construct => _ ← NullEvaluator.constructor; mret VVoid
  | Invoke c => invoke c
  | Destroy => _ ← NullEvaluator.destructor; mret VVoid
  end.

(** A caller that makes the given calls one after the other. *)
Fixpoint invoke_all (cs : list (Call Instance double)) : M W unit :=
  match cs with
  | [] => mret tt
  | c :: cs' => _ ← invoke c; invoke_all cs'
  end.

(** A caller that reports the given results one after the other. *)
Fixpoint addResults (rs : list (Instance * list double)) : M W unit :=
  match rs with
  | [] => mret tt
  | (i, scores) :: rs' =>
      _ ← NullEvaluator.addResult i scores; addResults rs'
  end.

(** The scenario of the spec: construct, three results, then ask for
    the measures and for the description. *)
Definition scenario (i1 i2 i3 : Instance) (s1 s2 s3 : list double)
  : M W (pointer * string) :=
  _ ← NullEvaluator.constructor;
  _ ← NullEvaluator.addResult i1 s1;
  _ ← NullEvaluator.addResult i2 s2;
  _ ← NullEvaluator.addResult i3 s3;
  m ← NullEvaluator.getMeasures;
  s ← NullEvaluator.toString;
  mret (m, s).

(** A caller that uses the measures without a null check:
    [*evaluator.getMeasures()]. *)
Definition read_measures_unchecked : M W Measures :=
  p ← NullEvaluator.getMeasures; deref p.

(** A caller that checks first:
    [m = evaluator.getMeasures(); if (m != nullptr) ... *m ...]. *)
Definition read_measures_checked : M W (option Measures) :=
  p ← NullEvaluator.getMeasures;
  if decide (p = nullptr) then mret None
  else (m ← deref p; mret (Some m)).

End Callers.

(** ** Longer interactions *)

(** What one caller sees of a list tagged with caller numbers: the
    entries under its own number, in order. *)
Definition view {A} (caller : nat) (l : list (nat * A)) : list A :=
  snd <$> filter (fun entry => fst entry = caller) l.

Section Sessions.

Context {Instance Measures double Members : Type}.

Abbreviation W := (World Members Measures).

(** A caller that makes the given calls one after the other and keeps
    what each of them hands back. *)
Fixpoint invoke_each (cs : list (Call Instance double)) : M W (list Value) :=
  match cs with
  | [] => mret []
  | c :: cs' => v ← invoke c; vs ← invoke_each cs'; mret (v :: vs)
  end.

(** Several callers share one evaluator.  Each request carries the
    number of its caller; the requests are served in the order they
    arrive, and each answer goes back under the caller's number. *)
Fixpoint serve (requests : list (nat * Call Instance double))
  : M W (list (nat * Value)) :=
  match requests with
  | [] => mret []
  | (caller, c) :: requests' =>
      v ← invoke c; answers ← serve requests'; mret ((caller, v) :: answers)
  end.

End Sessions.

(** ** Vocabulary of the specification *)

#[local] Set Warnings "-register-all".

(** JSON values as far as the parameter schema needs them (strings and
    objects), and their compact text.  This is what the specification
    means by the JSON object it quotes; the source only has the
    literal.  Keys and strings are printed as they are: none of the
    schema's needs an escape. *)
Module Json.

Inductive value : Type :=
| Str (s : string)
| Obj (members : list (string * value)).

Definition quoted (s : string) : string :=
  String dquote (s +:+ String dquote EmptyString).

Fixpoint to_string (v : value) : string :=
  match v with
  | Str s => quoted s
  | Obj members =>
      let fix print_members (ms : list (string * value)) : string :=
        match ms with
        | [] => EmptyString
        | (k, x) :: ms' =>
            quoted k +:+ ":" +:+ to_string x +:+
            match ms' with
            | [] => EmptyString
            | _ :: _ => "," +:+ print_members ms'
            end
        end
      in "{" +:+ print_members members +:+ "}"
  end.

(** Reading the compact text back.  [parse_string_body] reads a string
    from just after its opening quote up to the closing one. *)
Fixpoint parse_string_body (s : string) : option (string * string) :=
  match s with
  | EmptyString => None
  | String c s' =>
      if Ascii.eqb c dquote then Some (EmptyString, s')
      else '(body, rest) ← parse_string_body s'; Some (String c body, rest)
  end.

Fixpoint parse_value (fuel : nat) (s : string) {struct fuel}
  : option (value * string) :=
  match fuel, s with
  | S fuel', String c s' =>
      if Ascii.eqb c dquote then
        '(body, rest) ← parse_string_body s'; Some (Str body, rest)
      else if Ascii.eqb c "{"%char then
        match s' with
        | String "}"%char rest => Some (Obj [], rest)
        | _ => '(ms, rest) ← parse_members fuel' s'; Some (Obj ms, rest)
        end
      else None
  | _, _ => None
  end
with parse_members (fuel : nat) (s : string) {struct fuel}
  : option (list (string * value) * string) :=
  match fuel, s with
  | S fuel', String c s' =>
      if Ascii.eqb c dquote then
        '(k, after_key) ← parse_string_body s';
        match after_key with
        | String ":"%char after_colon =>
            '(x, after_value) ← parse_value fuel' after_colon;
            match after_value with
            | String ","%char more =>
                '(ms, rest) ← parse_members fuel' more; Some ((k, x) :: ms, rest)
            | String "}"%char rest => Some ([(k, x)], rest)
            | _ => None
            end
        | _ => None
        end
      else None
  | _, _ => None
  end.

(** A text is a value when all of it is read; its length is fuel
    enough, since each level of recursion reads a character. *)
Definition parse (s : string) : option value :=
  match parse_value (String.length s) s with
  | Some (v, EmptyString) => Some v
  | _ => None
  end.

(** The member of an object under a key (the first one, if repeated). *)
Definition member (k : string) (v : value) : option value :=
  match v with
  | Str _ => None
  | Obj members => snd <$> List.find (fun kv => bool_decide (fst kv = k)) members
  end.

End Json.

(** The schema the specification quotes for the class. *)
Definition NullEvaluator_schema : Json.value :=
  Json.Obj [("type", Json.Str "Evaluator");
            ("name", Json.Str "NullEvaluator");
            ("parameter", Json.Obj [("-f", Json.Str "Frequency")])].

(** Modelled from the spec: NullEvaluator.h, which declares the class and
    with it the data members, is not among the sources.  The spec gives
    the object no internal state and exactly one implicit state, which it
    calls inert. *)
Inductive NullEvaluator_members : Type :=
| inert.

(** Modelled from the spec: the subobjects that NullEvaluator.h declares
    for the class.  The spec gives the object no internal state and no
    lifecycle beyond the ordinary construction and destruction of a
    stateless object: there is no subobject to initialise or to destroy,
    so both steps return at once. *)
#[global] Instance NullEvaluator_subobjects {Measures : Type}
  : Subobjects NullEvaluator_members Measures :=
  {| initialize_subobjects := mret tt; destroy_subobjects := mret tt |}.

(** A sample state: an evaluator with no members, measures as text, and
    a free store that already holds one [Measures] object. *)
Definition sample_world : World NullEvaluator_members string :=
  mkWorld inert {[ 5%positive := "accuracy" ]}.

(** A class with one counter member whose initialisation sets it to
    zero, and a class with a member whose initialisation throws. *)
Definition counting_subobjects : Subobjects nat string :=
  {| initialize_subobjects := fun w => Returns tt (mkWorld 0 (free_store w));
     destroy_subobjects := mret tt |}.

Definition throwing_subobjects : Subobjects nat string :=
  {| initialize_subobjects := fun _ => Throws "member";
     destroy_subobjects := mret tt |}.

(** Two sample sessions with the same calls in two orders; instances
    are attribute vectors and scores are integers standing for the
    doubles. *)
Definition sample_session : list (Call (list nat) Z) :=
  [CallToString; CallAddResult [1; 0] [3; 7]%Z; CallGetMeasures].

Definition sample_session_reordered : list (Call (list nat) Z) :=
  [CallGetMeasures; CallToString; CallAddResult [1; 0] [3; 7]%Z].

(** ** Properties *)

Section Properties.

Context {Instance Measures double Members : Type}.
Context `{subobjects : !Subobjects Members Measures}.

Abbreviation W := (World Members Measures).

Implicit Types (w : W).
Implicit Types (i : Instance) (scores : list double).
Implicit Types (c : Call Instance double) (op : Operation Instance double).

(** *** Running computations *)

Lemma bind_Returns {A B} (m : M W A) (k : A -> M W B) w a w' :
  m w = Returns a w' -> (m ≫= k) w = k a w'.
Proof. intros Hm. unfold mbind, M_bind. now rewrite Hm. Qed.

Lemma Returns_never_fails {A} (m : M W A) :
  (forall w, exists a w', m w = Returns a w') -> never_fails m.
Proof.
  intros Hm w. destruct (Hm w) as (a & w' & E). rewrite E.
  split; [now exists a, w' | split; [intros what |]; discriminate].
Qed.

Lemma bind_unit (m : M W unit) w : (_ ← m; mret tt) w = m w.
Proof.
  unfold mbind, M_bind. destruct (m w) as [[] w' | what |]; reflexivity.
Qed.

Lemma constructor_run w :
  NullEvaluator.constructor w = initialize_subobjects w.
Proof. unfold NullEvaluator.constructor. apply bind_unit. Qed.

Lemma destructor_run w :
  NullEvaluator.destructor w = destroy_subobjects w.
Proof. reflexivity. Qed.

Lemma scenario_run (i1 i2 i3 : Instance) (s1 s2 s3 : list double) w :
  scenario i1 i2 i3 s1 s2 s3 w
  = (_ ← NullEvaluator.constructor; mret (nullptr, " ")) w.
Proof.
  unfold scenario, mbind, M_bind.
  destruct (NullEvaluator.constructor w) as [[] w0 | what |];
    reflexivity.
Qed.

Lemma addResult_run i scores w :
  NullEvaluator.addResult i scores w = Returns tt w.
Proof. reflexivity. Qed.

Lemma getMeasures_run w : NullEvaluator.getMeasures w = Returns nullptr w.
Proof. reflexivity. Qed.

Lemma toString_run w : NullEvaluator.toString w = Returns " " w.
Proof. reflexivity. Qed.

Lemma invoke_run c w : invoke c w = Returns (value_of c) w.
Proof. destruct c; reflexivity. Qed.

Lemma invoke_all_run (cs : list (Call Instance double)) w :
  invoke_all cs w = Returns tt w.
Proof.
  induction cs as [| c cs IH]; cbn [invoke_all]; [reflexivity |].
  rewrite (bind_Returns _ _ w (value_of c) w (invoke_run c w)).
  exact IH.
Qed.

Lemma addResults_run (rs : list (Instance * list double)) w :
  addResults rs w = Returns tt w.
Proof.
  induction rs as [| [i scores] rs IH]; cbn [addResults]; [reflexivity |].
  rewrite (bind_Returns _ _ w tt w (addResult_run i scores w)).
  exact IH.
Qed.

Lemma read_measures_checked_run w :
  read_measures_checked w = Returns None w.
Proof.
  unfold read_measures_checked.
  rewrite (bind_Returns _ _ w nullptr w (getMeasures_run w)).
  now rewrite decide_True.
Qed.

(** *** The claims *)

(** C1.  Whatever results were reported before, with any instances and
    score arrays, [getMeasures] returns the null pointer and leaves the
    state as it was: no [Measures] object is produced. *)
Theorem getMeasures_absent (rs : list (Instance * list double)) w :
  (_ ← addResults rs; NullEvaluator.getMeasures) w = Returns nullptr w.
Proof.
  rewrite (bind_Returns _ _ w tt w (addResults_run rs w)).
  apply getMeasures_run.
Qed.

(** C2.  Whatever calls of the public member functions came before,
    [toString] returns the string that is exactly one space. *)
Theorem toString_single_space (cs : list (Call Instance double)) w :
  (_ ← invoke_all cs; NullEvaluator.toString) w
  = Returns (String (Ascii.ascii_of_nat 32) EmptyString) w.
Proof.
  rewrite (bind_Returns _ _ w tt w (invoke_all_run cs w)).
  apply toString_run.
Qed.

(** C3.  For every instance and every score array, [addResult] returns
    with the state it was called in: the object and the free store
    after the call are those before it. *)
Theorem addResult_no_op i scores w :
  NullEvaluator.addResult i scores w = Returns tt w.
Proof.
  unfold NullEvaluator.addResult, mret, M_ret.
  destruct w as [object store]. reflexivity.
Qed.

(** C4.  Each public member function comes back normally for all
    inputs and from every state: it never throws and never runs into
    undefined behaviour. *)
Theorem operations_never_fail :
  (forall i scores,
      never_fails (NullEvaluator.addResult (Members:=Members)
                     (Measures:=Measures) i scores))
  /\ never_fails (NullEvaluator.getMeasures (Members:=Members)
                    (Measures:=Measures))
  /\ never_fails (NullEvaluator.toString (Members:=Members)
                    (Measures:=Measures)).
Proof.
  split; [intros i scores | split]; apply Returns_never_fails; intros w.
  - exists tt, w. apply addResult_run.
  - exists nullptr, w. apply getMeasures_run.
  - exists " ", w. apply toString_run.
Qed.

(** C7.  The file-scope registrations store the class under the key
    that is exactly the name NullEvaluator, and the schema string stored
    under that key is the literal of the source.  That literal is
    exactly the compact text of the JSON object with type Evaluator,
    name NullEvaluator and a parameter object whose single member -f is
    named Frequency: the object prints to it and it reads back as the
    object.  The character codes pin the text down without printer or
    reader. *)
Theorem registration_of_NullEvaluator (r : Registry (M W unit)) :
  NullEvaluator.class_name = "NullEvaluator"
  /\ classes (NullEvaluator.static_initialization r) !! "NullEvaluator"
     = Some NullEvaluator.constructor
  /\ parameters (NullEvaluator.static_initialization r) !! "NullEvaluator"
     = Some NullEvaluator.parameter_literal
  /\ NullEvaluator.parameter_literal = Json.to_string NullEvaluator_schema
  /\ Json.parse NullEvaluator.parameter_literal = Some NullEvaluator_schema
  /\ Ascii.nat_of_ascii
       <$> String.list_ascii_of_string NullEvaluator.parameter_literal
     = [123; 34; 116; 121; 112; 101; 34; 58; 34; 69; 118; 97; 108; 117;
        97; 116; 111; 114; 34; 44; 34; 110; 97; 109; 101; 34; 58; 34; 78;
        117; 108; 108; 69; 118; 97; 108; 117; 97; 116; 111; 114; 34; 44;
        34; 112; 97; 114; 97; 109; 101; 116; 101; 114; 34; 58; 123; 34;
        45; 102; 34; 58; 34; 70; 114; 101; 113; 117; 101; 110; 99; 121;
        34; 125; 125]
  /\ Json.member "parameter" NullEvaluator_schema
     = Some (Json.Obj [("-f", Json.Str "Frequency")]).
Proof.
  split; [reflexivity |].
  split; [cbn; apply lookup_insert_eq |].
  split; [cbn; apply lookup_insert_eq |].
  repeat split; vm_compute; reflexivity.
Qed.

(** C9.  What [getMeasures] returns is the null pointer itself and the
    address of no object, so of no empty [Measures] object either; a
    caller that reads through the result without a null check reads
    through the null pointer, which is undefined. *)
Theorem getMeasures_null_pointer w :
  NullEvaluator.getMeasures w = Returns nullptr w
  /\ (forall a w', NullEvaluator.getMeasures w <> Returns (object_at a) w')
  /\ read_measures_unchecked w = Undefined.
Proof.
  split; [reflexivity | split; [| reflexivity]].
  intros a w'. rewrite getMeasures_run. discriminate.
Qed.

End Properties.

(** *** The class as the specification gives it *)

Lemma perform_run_memberless {Instance Measures double : Type}
    (op : Operation Instance double)
    (w : World NullEvaluator_members Measures) :
  exists v, perform op w = Returns v w.
Proof.
  destruct op as [| c |]; cbn [perform].
  - exists VVoid. rewrite (bind_Returns _ _ w tt w); [reflexivity |].
    now rewrite constructor_run.
  - exists (value_of c). apply invoke_run.
  - exists VVoid. rewrite (bind_Returns _ _ w tt w); [reflexivity |].
    now rewrite destructor_run.
Qed.

(** C5.  The scenario: construct the evaluator, report three results
    with arbitrary instances and scores, ask for the measures, then for
    the description.  Whatever subobjects the class declares, the
    scenario is the construction followed by handing back the absent
    measures and the single space: once the object is constructed, the
    measures are absent and the description is the single space.  For
    the class as the specification gives it the construction returns at
    once, and the scenario returns the two values in the state it began
    in. *)
Theorem scenario_result {Instance Measures double : Type}
    (i1 i2 i3 : Instance) (s1 s2 s3 : list double) :
  (forall (Members : Type) (subobjects : Subobjects Members Measures)
          (w : World Members Measures),
      scenario i1 i2 i3 s1 s2 s3 w
      = (_ ← NullEvaluator.constructor; mret (nullptr, " ")) w)
  /\ (forall w : World NullEvaluator_members Measures,
         scenario i1 i2 i3 s1 s2 s3 w = Returns (nullptr, " ") w).
Proof.
  split.
  - intros Members subobjects w. apply scenario_run.
  - intros w. rewrite scenario_run.
    rewrite (bind_Returns _ _ w tt w); [reflexivity |].
    now rewrite constructor_run.
Qed.

(** C10.  The constructor and the destructor add nothing of their own:
    whatever subobjects the class declares, the constructor is their
    default initialisation and the destructor is their destruction, the
    two empty bodies contributing no write, no resource and no failure.
    For the class as the specification gives it, with no subobject to
    initialise or destroy, both return with the state they were entered
    in: no member is written and nothing is taken from or given back to
    the free store. *)
Theorem constructor_destructor_no_op {Measures : Type} :
  (forall (Members : Type) (subobjects : Subobjects Members Measures)
          (w : World Members Measures),
      NullEvaluator.constructor w = initialize_subobjects w
      /\ NullEvaluator.destructor w = destroy_subobjects w)
  /\ (forall w : World NullEvaluator_members Measures,
         NullEvaluator.constructor w = Returns tt w
         /\ NullEvaluator.destructor w = Returns tt w).
Proof.
  split.
  - intros Members subobjects w.
    split; [apply constructor_run | apply destructor_run].
  - intros w. rewrite constructor_run, destructor_run.
    split; reflexivity.
Qed.

(** C6.  With the data members the specification gives the class, an
    object has exactly one state, [inert]; construction, every call and
    destruction return with the state they were entered in; and the
    value an operation hands back is the same from any two states. *)
Theorem NullEvaluator_single_state {Instance Measures double : Type} :
  (forall o : NullEvaluator_members, o = inert)
  /\ (forall (op : Operation Instance double)
             (w : World NullEvaluator_members Measures),
         exists v, perform op w = Returns v w /\ this w = inert)
  /\ (forall (op : Operation Instance double)
             (w1 w2 : World NullEvaluator_members Measures),
         result (perform op w1) = result (perform op w2)).
Proof.
  split; [intros [] ; reflexivity |].
  split.
  - intros op w. destruct (perform_run_memberless op w) as [v Hv].
    exists v. split; [exact Hv | now destruct (this w)].
  - intros op w1 w2. destruct op as [| [] |]; reflexivity.
Qed.

(** ** Sessions of calls *)

Section SessionProperties.

Context {Instance Measures double Members : Type}.

Abbreviation W := (World Members Measures).

Implicit Types (w : W) (cs : list (Call Instance double)).
Implicit Types (requests : list (nat * Call Instance double)).

Lemma invoke_each_run cs w :
  invoke_each cs w = Returns (value_of <$> cs) w.
Proof.
  induction cs as [| c cs IH]; cbn [invoke_each]; [reflexivity |].
  rewrite (bind_Returns _ _ w (value_of c) w (invoke_run c w)).
  rewrite (bind_Returns _ _ w (value_of <$> cs) w IH).
  reflexivity.
Qed.

Lemma serve_run requests w :
  serve requests w = Returns (prod_map id value_of <$> requests) w.
Proof.
  induction requests as [| [caller c] requests IH]; cbn [serve];
    [reflexivity |].
  rewrite (bind_Returns _ _ w (value_of c) w (invoke_run c w)).
  rewrite (bind_Returns _ _ w _ w IH).
  reflexivity.
Qed.

Lemma view_answers (caller : nat) requests :
  view caller (prod_map id value_of <$> requests)
  = value_of <$> view caller requests.
Proof.
  unfold view.
  induction requests as [| [k c] requests IH]; [reflexivity |].
  rewrite fmap_cons, !filter_cons. cbn [prod_map fst id].
  destruct (decide (k = caller)) as [_ | _]; [| exact IH].
  rewrite !fmap_cons. cbn [snd prod_map]. f_equal. exact IH.
Qed.

(** X1.  A session of calls, from any state, hands back for each call
    the fixed value of its member function (nothing for [addResult], the
    null pointer for [getMeasures], the single space for [toString]), in
    the order of the calls, and ends in the state it began in. *)
Theorem invoke_each_trace cs w :
  invoke_each cs w = Returns (value_of <$> cs) w.
Proof. apply invoke_each_run. Qed.

(** X2.  Making the same calls in another order changes nothing but the
    order of the values handed back: both sessions return, in the same
    state, and the two lists of values are permutations of each
    other. *)
Theorem invoke_each_reordered cs1 cs2 w :
  cs1 ≡ₚ cs2 ->
  exists vs1 vs2,
    invoke_each cs1 w = Returns vs1 w
    /\ invoke_each cs2 w = Returns vs2 w
    /\ vs1 ≡ₚ vs2.
Proof.
  intros Hperm. exists (value_of <$> cs1), (value_of <$> cs2).
  split; [apply invoke_each_run | split; [apply invoke_each_run |]].
  now apply fmap_Permutation.
Qed.

(** X3.  When several callers share one evaluator, each caller is
    answered as if it were alone: for any order in which the requests
    arrive, serving them all returns, and the answers under a caller's
    number are the values that caller's own calls hand back in a
    session of their own, started from any state. *)
Theorem serve_caller_view (caller : nat) requests w w' :
  is_Some (result (serve requests w))
  /\ view caller <$> result (serve requests w)
     = result (invoke_each (view caller requests) w').
Proof.
  rewrite serve_run, invoke_each_run. cbn [result]. split; [eauto |].
  cbn [fmap option_fmap option_map]. f_equal. apply view_answers.
Qed.

End SessionProperties.

(** The two sample sessions on the sample state. *)
Lemma invoke_each_reordered_witness :
  sample_session ≡ₚ sample_session_reordered
  /\ exists vs1 vs2,
       invoke_each sample_session sample_world = Returns vs1 sample_world
       /\ invoke_each sample_session_reordered sample_world
          = Returns vs2 sample_world
       /\ vs1 ≡ₚ vs2.
Proof.
  assert (Hperm : sample_session ≡ₚ sample_session_reordered).
  { unfold sample_session, sample_session_reordered.
    etransitivity; [apply Permutation_skip, Permutation_swap |].
    apply Permutation_swap. }
  split; [exact Hperm |].
  exact (invoke_each_reordered
           sample_session sample_session_reordered sample_world Hperm).
Defined.

(** ** Running the embedding on concrete data *)

(** The sample state of the definitions above: instances are attribute
    vectors and scores are integers standing for the doubles. *)

Example scenario_on_sample :
  scenario (Instance:=list nat) (double:=Z)
    [1; 0] [0; 1] [1; 1] [3; 7]%Z [] [2]%Z sample_world
  = Returns (nullptr, " ") sample_world.
Proof. vm_compute. reflexivity. Qed.

Example unchecked_read_on_sample :
  read_measures_unchecked sample_world = Undefined.
Proof. vm_compute. reflexivity. Qed.

Example checked_read_on_sample :
  deref (object_at 5) sample_world = Returns "accuracy" sample_world.
Proof. vm_compute. reflexivity. Qed.

Example registration_on_empty_registry :
  parameters
    (NullEvaluator.static_initialization
       (Members:=NullEvaluator_members) (Measures:=string)
       (mkRegistry ∅ ∅))
  = {[ "NullEvaluator" := Json.to_string NullEvaluator_schema ]}.
Proof. vm_compute. reflexivity. Qed.

Example scenario_with_counter_member :
  scenario (Instance:=list nat) (double:=Z) (subobjects:=counting_subobjects)
    [1; 0] [0; 1] [1; 1] [3; 7]%Z [] [2]%Z (mkWorld 9 ∅)
  = Returns (nullptr, " ") (mkWorld 0 ∅).
Proof. vm_compute. reflexivity. Qed.

Example scenario_with_throwing_member :
  scenario (Instance:=list nat) (double:=Z) (subobjects:=throwing_subobjects)
    [1; 0] [0; 1] [1; 1] [3; 7]%Z [] [2]%Z (mkWorld 9 ∅)
  = Throws "member".
Proof. vm_compute. reflexivity. Qed.
